(** * export_demucs_v4_pytorch_onnx.py: the export script as an effectful program

    The script is a straight line of library calls: install a warnings
    filter, load a pretrained model, wrap it so that the STFT runs inside
    the traced graph, export the wrapper to ONNX, report the file size.

    The embedding threads an explicit process state ([World]) through a
    small state, exception and trace monad.  What the script observably
    does (console lines, library calls with their arguments) is the trace;
    the libraries whose code is not part of the script (the model registry,
    the model's own routines, the generator, the graph serialiser, the
    disk) are variables of the section. *)

From Stdlib Require Import ZArith.
From stdpp Require Import base gmap strings list pretty.

Local Open Scope Z_scope.

(* ===================================================================== *)
(** ** Python values the script handles *)
(* ===================================================================== *)

(** A raised exception: its class and its message. *)
Record Exn := MkExn { exn_class : string; exn_msg : string }.

(** Warning categories form a class hierarchy below [Warning]. *)
Inductive Category :=
  | Warning
  | UserWarning
  | DeprecationWarning
  | FutureWarning
  | RuntimeWarning
  | Subclass (cls : string) (base : Category).

#[global] Instance Category_eq_dec : EqDecision Category.
Proof. solve_decision. Defined.

(** [issubclass c d]: walk up from [c]; the built-in categories derive
    directly from [Warning]. *)
Fixpoint issubclass (c d : Category) : bool :=
  if decide (c = d) then true
  else match c with
       | Warning => false
       | Subclass _ b => issubclass b d
       | _ => if decide (d = Warning) then true else false
       end.

Inductive Action :=
  | ActError | ActIgnore | ActAlways | ActDefault | ActModule | ActOnce.

(** An entry of [warnings.filters]:
    [(action, message, category, module, lineno)]; the two patterns are
    [None] when the call gave none. *)
Record WFilter := MkFilter {
  f_action : Action;
  f_message : option string;
  f_category : Category;
  f_module : option string;
  f_lineno : nat
}.

#[global] Instance Action_eq_dec : EqDecision Action.
Proof. solve_decision. Defined.
#[global] Instance WFilter_eq_dec : EqDecision WFilter.
Proof. solve_decision. Defined.

(** A warning as [warnings.warn] sees it. *)
Record Warn := MkWarn {
  w_category : Category;
  w_text : string;
  w_module : string;
  w_lineno : nat
}.

Inductive Device := CPU | CUDA (index : nat).

(** Object references into the heap of [torch.nn.Module] objects. *)
Abbreviation loc := nat (only parsing).

(** The authored class: its only attribute is the reference stored by
    [__init__] ([self.model = model]). *)
Record WaveformOnlyWrapper := WaveformOnlyWrapper_init { model : loc }.

(** [wrapper_bag]: the ensemble returned by [get_model]; [models] is its
    list of constituent models. *)
Record BagOfModels := { models : list loc }.

Section Script.

(** Opaque library data: tensor contents, model weights, generator state. *)
Context {Data Params Gen : Type}.

Record Tensor := MkTensor { shape : list Z; data : Data }.

(** The mutable state of a loaded model object. *)
Record ModuleState := MkModule {
  params : Params;
  device : Device;
  training : bool
}.

(** The keyword arguments of the [torch.onnx.export] call, with the three
    positional ones in front. *)
Record ExportCall := MkExport {
  ex_model : WaveformOnlyWrapper;
  ex_args : Tensor;
  ex_f : string;
  opset_version : Z;
  input_names : list string;
  output_names : list string;
  dynamic_axes : gmap string (gmap Z string);
  do_constant_folding : bool;
  export_params : bool;
  verbose : bool
}.

(** What a run shows or asks of a library, in order. *)
Inductive Event :=
  | EvImport (module : string)
  | EvPrint (text : string)
  | EvWarn (w : Warn)
  | EvGetModel (model_name : string)
  | EvRandn (size : list Z)
  | EvExport (call : ExportCall).

(** The process state.  [argv] and [environ] are how the script was
    invoked; [files] is the disk; [heap] holds the module objects. *)
Record World := MkWorld {
  argv : list string;
  environ : gmap string string;
  filters : list WFilter;
  files : gmap string (list Byte.byte);
  generator : Gen;
  heap : gmap loc ModuleState
}.

Definition set_filters (fs : list WFilter) (w : World) : World :=
  MkWorld (argv w) (environ w) fs (files w) (generator w) (heap w).
Definition set_files (d : gmap string (list Byte.byte)) (w : World) : World :=
  MkWorld (argv w) (environ w) (filters w) d (generator w) (heap w).
Definition set_generator (g : Gen) (w : World) : World :=
  MkWorld (argv w) (environ w) (filters w) (files w) g (heap w).
Definition set_heap (h : gmap loc ModuleState) (w : World) : World :=
  MkWorld (argv w) (environ w) (filters w) (files w) (generator w) h.
Definition set_invocation (a : list string) (e : gmap string string)
    (w : World) : World :=
  MkWorld a e (filters w) (files w) (generator w) (heap w).

(* ===================================================================== *)
(** ** The monad: state, exceptions, trace *)
(* ===================================================================== *)

Record Outcome (A : Type) := MkOutcome {
  trace : list Event;
  final : World;
  value : Exn + A
}.
Arguments MkOutcome {A} _ _ _.
Arguments trace {A} _.
Arguments final {A} _.
Arguments value {A} _.

Definition M (A : Type) : Type := World -> Outcome A.

Definition ret {A} (a : A) : M A := fun w => MkOutcome [] w (inr a).

Definition raise {A} (e : Exn) : M A := fun w => MkOutcome [] w (inl e).

Definition bind {A B} (m : M A) (k : A -> M B) : M B := fun w =>
  let r := m w in
  match value r with
  | inl e => MkOutcome (trace r) (final r) (inl e)
  | inr a =>
      let r' := k a (final r) in
      MkOutcome (trace r ++ trace r') (final r') (value r')
  end.

Definition emit (e : Event) : M unit := fun w => MkOutcome [e] w (inr tt).

Definition get_world : M World := fun w => MkOutcome [] w (inr w).

Definition modify (f : World -> World) : M unit :=
  fun w => MkOutcome [] (f w) (inr tt).

#[global] Instance M_ret : MRet M := @ret.
#[global] Instance M_bind : MBind M := fun A B k m => bind m k.



(* ===================================================================== *)
(** ** The libraries the script calls *)
(* ===================================================================== *)

(** A library routine hands back the warnings it issued, in order, and
    its result or the exception it raised. *)
Definition Lib (A : Type) : Type := (list Warn * (Exn + A))%type.

(** The routines whose code is not the script's own. *)
Class Libraries := {
  (** [re.match] for the patterns of pre-existing filters. *)
  re_match : string -> string -> bool;
  (** The top-level code of an imported module. *)
  module_code : string -> Lib unit;
  (** [demucs.pretrained]: the constituent models stored under a name. *)
  pretrained : string -> Lib (list ModuleState);
  (** The wrapped model's own routines, [_spec] and the two-input call;
      each may also change the model object. *)
  HTDemucs_spec : ModuleState -> Tensor -> ModuleState * Lib Tensor;
  HTDemucs_call : ModuleState -> Tensor -> Tensor -> ModuleState * Lib Tensor;
  (** The default generator: the values drawn for a size, the next state. *)
  sample_normal : Gen -> list Z -> Data * Gen;
  (** The serialised graph for an export call, the module objects and the
      traced output. *)
  onnx_graph :
    ExportCall -> gmap loc ModuleState -> Tensor -> Lib (list Byte.byte);
  (** Disk faults: [None] when the write goes through, else the error and
      what is left at the path ([None]: the path was not touched). *)
  disk_fault :
    string -> list Byte.byte -> option (Exn * option (list Byte.byte));
  (** The rendering of [size / 1024 / 1024] by the format [.0f]. *)
  format_mb : nat -> string
}.

Context {L : Libraries}.

(** *** warnings *)

Definition category_name (c : Category) : string :=
  match c with
  | Warning => "Warning"
  | UserWarning => "UserWarning"
  | DeprecationWarning => "DeprecationWarning"
  | FutureWarning => "FutureWarning"
  | RuntimeWarning => "RuntimeWarning"
  | Subclass cls _ => cls
  end.

Definition pattern_ok (p : option string) (s : string) : bool :=
  match p with
  | None => true
  | Some r => re_match r s
  end.

(** The test [warnings.warn] applies to each entry of [warnings.filters]. *)
Definition filter_applies (f : WFilter) (x : Warn) : bool :=
  pattern_ok (f_message f) (w_text x)
  && issubclass (w_category x) (f_category f)
  && pattern_ok (f_module f) (w_module x)
  && (bool_decide (f_lineno f = 0%nat)
      || bool_decide (w_lineno x = f_lineno f)).

(** The first entry that applies decides; with none, the default action. *)
Fixpoint resolve (fs : list WFilter) (x : Warn) : Action :=
  match fs with
  | [] => ActDefault
  | f :: rest => if filter_applies f x then f_action f else resolve rest x
  end.

Definition warnings_warn (x : Warn) : M unit :=
  w ← get_world;
  match resolve (filters w) x with
  | ActIgnore => mret tt
  | ActError => raise (MkExn (category_name (w_category x)) (w_text x))
  | _ => emit (EvWarn x)
  end.

Fixpoint remove_first (f : WFilter) (fs : list WFilter) : list WFilter :=
  match fs with
  | [] => []
  | g :: rest => if decide (g = f) then rest else g :: remove_first f rest
  end.

(** [warnings.filterwarnings(action, category=category)]: no message, no
    module, line 0, [append=False]: an equal entry is removed and the new
    one goes to the front. *)
Definition warnings_filterwarnings (action : Action) (category : Category)
    : M unit :=
  let item := MkFilter action None category None 0 in
  modify (fun w => set_filters (item :: remove_first item (filters w)) w).

Fixpoint warn_all (xs : list Warn) : M unit :=
  match xs with
  | [] => mret tt
  | x :: rest => warnings_warn x;; warn_all rest
  end.

(** Running a library routine: its warnings go through the filters, then
    its result or exception comes back.  A routine is described by these
    two things alone; what a library does to the filter list or to the
    disk on its own account is outside this description. *)
Definition lib {A} (r : Lib A) : M A :=
  warn_all (r.1);;
  match r.2 with
  | inl e => raise e
  | inr a => mret a
  end.

(** *** builtins, os *)

(** [print(text)] to a standard output that can encode [text]: the line
    is shown and the call returns. *)
Definition print (text : string) : M unit := emit (EvPrint text).

Definition import_ (module : string) : M unit :=
  emit (EvImport module);; lib (module_code module).

(** [xs[i]] on the [ModuleList] of an ensemble. *)
Definition getitem (xs : list loc) (i : nat) : M loc :=
  match xs !! i with
  | Some x => mret x
  | None =>
      raise (MkExn "IndexError" ("index " +:+ pretty i +:+ " is out of range"))
  end.

Definition os_path_getsize (path : string) : M nat :=
  w ← get_world;
  match files w !! path with
  | Some content => mret (length content)
  | None => raise (MkExn "FileNotFoundError" path)
  end.

(** Opening [path] for writing and writing [content]: an existing file is
    replaced. *)
Definition write_file (path : string) (content : list Byte.byte) : M unit :=
  match disk_fault path content with
  | None => modify (fun w => set_files (<[path := content]> (files w)) w)
  | Some (e, remains) =>
      match remains with
      | Some part => modify (fun w => set_files (<[path := part]> (files w)) w)
      | None => mret tt
      end;;
      raise e
  end.

(** *** demucs, torch *)

Definition alloc (st : ModuleState) : M loc := fun w =>
  let l := fresh (dom (heap w)) in
  MkOutcome [] (set_heap (<[l := st]> (heap w)) w) (inr l).

Fixpoint alloc_modules (sts : list ModuleState) : M (list loc) :=
  match sts with
  | [] => mret []
  | st :: rest => l ← alloc st; ls ← alloc_modules rest; mret (l :: ls)
  end.

Definition get_model (name : string) : M BagOfModels :=
  emit (EvGetModel name);;
  sts ← lib (pretrained name);
  ls ← alloc_modules sts;
  mret {| models := ls |}.

(** A method call on the module object at [l]. *)
Definition method {A} (l : loc) (f : ModuleState -> ModuleState * Lib A)
    : M A :=
  w ← get_world;
  match heap w !! l with
  | None => raise (MkExn "ReferenceError" "no such object")
  | Some st =>
      modify (set_heap (<[l := (f st).1]> (heap w)));;
      lib ((f st).2)
  end.

Definition Module_cpu (l : loc) : M unit :=
  method l (fun st => (MkModule (params st) CPU (training st), ([], inr tt))).

Definition Module_eval (l : loc) : M unit :=
  method l (fun st => (MkModule (params st) (device st) false, ([], inr tt))).

Definition Module_spec (l : loc) (x : Tensor) : M Tensor :=
  method l (fun st => HTDemucs_spec st x).

Definition Module_call (l : loc) (x z : Tensor) : M Tensor :=
  method l (fun st => HTDemucs_call st x z).

Definition torch_randn (size : list Z) : M Tensor :=
  emit (EvRandn size);;
  w ← get_world;
  modify (set_generator (sample_normal (generator w) size).2);;
  mret (MkTensor size (sample_normal (generator w) size).1).

(* ===================================================================== *)
(** ** The script *)
(* ===================================================================== *)

(** [WaveformOnlyWrapper.forward] *)
Definition forward (self : WaveformOnlyWrapper) (input_waveform : Tensor)
    : M Tensor :=
  z ← Module_spec (model self) input_waveform;
  Module_call (model self) input_waveform z.

(** The reference the wrapper is compared with, as the specification
    words it: the wrapped model's native two-input entry point, called
    with the waveform and with the transform that the model's own
    transform routine computes from the same waveform. *)
Definition direct_two_input_call (wrapped : loc) (waveform : Tensor)
    : M Tensor :=
  transform ← Module_spec wrapped waveform;
  Module_call wrapped waveform transform.

(** The same reference on the library routines alone, for a model object
    in state [st]: the result, and the state the object is left in. *)
Definition direct_result (st : ModuleState) (waveform : Tensor)
    : Exn + Tensor :=
  match (HTDemucs_spec st waveform).2.2 with
  | inl e => inl e
  | inr transform =>
      (HTDemucs_call (HTDemucs_spec st waveform).1 waveform transform).2.2
  end.

(** [torch.onnx.export]: one forward execution of the module on the
    given input, then the graph is serialised and written to [f].  Files
    that an exporter may leave next to [f] are not described. *)
Definition torch_onnx_export (c : ExportCall) : M unit :=
  emit (EvExport c);;
  out ← forward (ex_model c) (ex_args c);
  w ← get_world;
  graph ← lib (onnx_graph c (heap w) out);
  write_file (ex_f c) graph.

Definition nl : string := String (Ascii.ascii_of_nat 10) "".

Definition name : string := "htdemucs_6s".
Definition segment : Z := 343980.
Definition output_file : string := "htdemucs_6s_waveform.onnx".

Definition imports : M unit :=
  import_ "torch";;
  import_ "demucs.pretrained";;
  import_ "warnings".

Definition install_filter : M unit :=
  warnings_filterwarnings ActIgnore UserWarning.

Definition load_model : M loc :=
  print (nl +:+ "Loading " +:+ name +:+ "...");;
  wrapper_bag ← get_model name;
  real_model ← getitem (models wrapper_bag) 0;
  Module_cpu real_model;;
  Module_eval real_model;;
  mret real_model.

Definition wrap_model (real_model : loc) : M WaveformOnlyWrapper :=
  print "Wrapping model (STFT internalized)...";;
  mret (WaveformOnlyWrapper_init real_model).

Definition export_call (wrapped_model : WaveformOnlyWrapper)
    (dummy_input : Tensor) : ExportCall :=
  {| ex_model := wrapped_model;
     ex_args := dummy_input;
     ex_f := output_file;
     opset_version := 17;
     input_names := ["input"];
     output_names := ["output"];
     dynamic_axes :=
       {[ "input" := {[ 0 := "batch"; 2 := "time" ]};
          "output" := {[ 0 := "batch"; 3 := "time" ]} ]};
     do_constant_folding := true;
     export_params := true;
     verbose := false |}.

Definition export_model (wrapped_model : WaveformOnlyWrapper) : M unit :=
  dummy_input ← torch_randn [1; 2; segment];
  print ("Exporting to " +:+ output_file
         +:+ "  (this may take a few minutes)...");;
  torch_onnx_export (export_call wrapped_model dummy_input).

Definition report : M unit :=
  import_ "os";;
  size ← os_path_getsize output_file;
  print (nl +:+ "  Export complete: " +:+ output_file
         +:+ "  (" +:+ format_mb size +:+ " MB)");;
  print "";;
  print "  Next step — build the TRT engine for your GPU:";;
  print "    python build_engine.py --onnx htdemucs_6s_waveform.onnx";;
  print "";;
  print "  Or rename it and use the default:";;
  print ("    rename " +:+ output_file +:+ " demucsv4.onnx");;
  print "    python build_engine.py";;
  print "".

Definition script : M unit :=
  imports;;
  install_filter;;
  real_model ← load_model;
  wrapped_model ← wrap_model real_model;
  export_model wrapped_model;;
  report.

End Script.

Arguments Tensor : clear implicits.
Arguments ModuleState : clear implicits.
Arguments World : clear implicits.
Arguments Libraries : clear implicits.
Arguments MkOutcome {Data Params Gen A} _ _ _.
Arguments trace {Data Params Gen A} _.
Arguments final {Data Params Gen A} _.
Arguments value {Data Params Gen A} _.

(* ===================================================================== *)
(** ** A small concrete environment, to run the script on *)
(* ===================================================================== *)

Module Toy.

(** Tensor contents, weights and generator states are plain integers. *)
Definition spec_routine (st : ModuleState Z) (x : Tensor Z)
    : ModuleState Z * Lib (Tensor Z) :=
  (st, ([], inr (MkTensor (shape x ++ [2]) (data x + params st)))).

(** Six stems for a three-axis waveform, a [ValueError] otherwise. *)
Definition call_routine (st : ModuleState Z) (x z : Tensor Z)
    : ModuleState Z * Lib (Tensor Z) :=
  (st,
   ([MkWarn UserWarning "slow path" "demucs.htdemucs" 10],
    match shape x with
    | [b; c; t] => inr (MkTensor [b; 6; c; t] (data x + data z))
    | _ => inl (MkExn "ValueError" "expected a three-axis waveform")
    end)).

Definition registry (known : bool) (n : string) : Lib (list (ModuleState Z)) :=
  if known && bool_decide (n = "htdemucs_6s")
  then ([MkWarn UserWarning "weights_only" "torch.serialization" 1],
        inr [MkModule 7 (CUDA 0) true; MkModule 8 CPU true])
  else ([], inl (MkExn "ModelLoadingError" n)).

#[local] Instance libraries (known : bool) : Libraries Z Z Z := {|
  re_match := String.eqb;
  module_code := fun m =>
    ([MkWarn UserWarning "import noise" m 1], inr tt);
  pretrained := registry known;
  HTDemucs_spec := spec_routine;
  HTDemucs_call := call_routine;
  sample_normal := fun g size => (g * 3, g + 1);
  onnx_graph := fun c h out =>
    ([MkWarn (Subclass "TracerWarning" Warning) "traced" "torch.jit" 5],
     inr [Byte.x08; Byte.x11]);
  disk_fault := fun _ _ => None;
  format_mb := fun _ => "0"
|}.

(** A fresh process: no filters, an empty heap, a disk with one file. *)
Definition boot (seed : Z) : World Z Z :=
  MkWorld ["export_htdemucs.py"] ∅ []
    {[ "notes.txt" := [Byte.x61] ]} seed ∅.

(** A process that holds one model object, on CPU, in evaluation mode. *)
Definition loaded (seed : Z) : World Z Z :=
  MkWorld ["export_htdemucs.py"] ∅ []
    {[ "notes.txt" := [Byte.x61] ]} seed {[ 0%nat := MkModule 7 CPU false ]}.

(** The export call the script makes when the generator is in [seed]. *)
Definition the_call (seed : Z) : @ExportCall Z :=
  export_call (WaveformOnlyWrapper_init 0)
    (MkTensor [1; 2; 343980] (seed * 3)).




End Toy.

(* ===================================================================== *)
(** ** Reasoning about runs *)
(* ===================================================================== *)

Section Properties.

Context {Data Params Gen : Type} {L : Libraries Data Params Gen}.

#[local] Abbreviation World := (World Params Gen).
#[local] Abbreviation Event := (@Event Data).
#[local] Abbreviation M := (@M Data Params Gen).
#[local] Abbreviation Outcome := (@Outcome Data Params Gen).
#[local] Abbreviation Tensor := (Tensor Data).
#[local] Abbreviation ModuleState := (ModuleState Params).
#[local] Abbreviation ExportCall := (@ExportCall Data).

Implicit Types (w : World) (x : Warn) (e : Event) (st : ModuleState).

(* ===================================================================== *)
(** ** Vocabulary of the statements *)
(* ===================================================================== *)

(** [wp m P Q E w]: run from [w], every event [m] emits satisfies [P];
    when [m] returns [a] in [w'], [Q a w'] holds; when it raises in [w'],
    [E w'] holds. *)
Definition wp {A} (m : M A) (P : Event -> Prop) (Q : A -> World -> Prop)
    (E : World -> Prop) (w : World) : Prop :=
  Forall P (trace (m w)) /\
  match value (m w) with
  | inr a => Q a (final (m w))
  | inl _ => E (final (m w))
  end.

(** The warnings that get past the filters of [w] are acceptable events. *)
Definition shown_ok (P : Event -> Prop) (w : World) : Prop :=
  forall x, resolve (filters w) x <> ActIgnore -> P (EvWarn x).

(** What the export call declares at the boundary of the graph. *)
Definition declares (c : ExportCall) : Prop :=
  opset_version c = 17 /\
  input_names c = ["input"] /\
  output_names c = ["output"] /\
  dom (dynamic_axes c) = {[ "input"; "output" ]} /\
  dynamic_axes c !! "input" = Some {[ 0 := "batch"; 2 := "time" ]} /\
  dom <$> dynamic_axes c !! "input" = Some {[ 0; 2 ]} /\
  dynamic_axes c !! "output" = Some {[ 0 := "batch"; 3 := "time" ]} /\
  dom <$> dynamic_axes c !! "output" = Some {[ 0; 3 ]} /\
  shape (ex_args c) = [1; 2; 343980].

(** The export calls of a trace, in order. *)
Definition export_events (t : list Event) : list ExportCall :=
  omap (fun e => match e with EvExport c => Some c | _ => None end) t.

(** [R] holds of the call when the event is an export call. *)
Definition on_export (R : ExportCall -> Prop) (e : Event) : Prop :=
  forall c, e = EvExport c -> R c.

(** The tensor [torch.randn(1, 2, segment)] yields under generator
    state [g]. *)
Definition drawn (g : Gen) : Tensor :=
  MkTensor [1; 2; 343980] (sample_normal g [1; 2; 343980]).1.

(** An event that is not a shown [UserWarning] (or subclass). *)
Definition quiet (e : Event) : Prop :=
  forall x, e = EvWarn x -> issubclass (w_category x) UserWarning = false.

(** What importing can emit: the import itself and warnings. *)
Definition import_event (e : Event) : Prop :=
  match e with
  | EvImport _ | EvWarn _ => True
  | _ => False
  end.

(** No filter turns a warning into an exception. *)
Definition no_error_filter (w : World) : Prop :=
  forall x, resolve (filters w) x <> ActError.

(** No constraint on the events. *)
Definition any_event (e : Event) : Prop := True.

(** The only model name a run asks the registry for. *)
Definition asks_for (n : string) (e : Event) : Prop :=
  forall n', e = EvGetModel n' -> n' = n.

(** The weights of the module object at [l], if there is one. *)
Definition parameters (w : World) (l : loc) : option Params :=
  params <$> heap w !! l.

(** Every object of [h] is in [h'] with the same weights. *)
Definition same_weights (h h' : gmap loc ModuleState) : Prop :=
  forall l p, params <$> h !! l = Some p -> params <$> h' !! l = Some p.

(** [graph] is what the serialiser returned for an export call of the
    script. *)
Definition serialised (graph : list Byte.byte) : Prop :=
  exists c h out, declares c /\ (onnx_graph c h out).2 = inr graph.


(** The values the script hands to the libraries. *)
Definition fixed_parameters (e : Event) : Prop :=
  match e with
  | EvGetModel n => n = "htdemucs_6s"
  | EvRandn size => size = [1; 2; 343980]
  | EvExport c =>
      ex_f c = "htdemucs_6s_waveform.onnx" /\
      opset_version c = 17 /\
      shape (ex_args c) = [1; 2; 343980]
  | _ => True
  end.

(** [blind m]: how the process was invoked ([argv], [environ]) has no
    influence on what [m] does. *)
Definition blind {A} (m : M A) : Prop :=
  forall a env w,
    m (set_invocation a env w)
    = MkOutcome (trace (m w)) (set_invocation a env (final (m w)))
                (value (m w)).

(** The trace with the shown warnings left out: the library calls and
    the console lines of the script itself. *)
Definition without_warnings (t : list Event) : list Event :=
  omap (fun e => match e with EvWarn _ => None | _ => Some e end) t.

(** An event that is a shown warning. *)
Definition warning_only (e : Event) : Prop :=
  match e with
  | EvWarn _ => True
  | _ => False
  end.

(** The calls and console lines of a run that goes to the end, in the
    order of the script: [g] is the generator state at start,
    [real_model] the loaded model, [size] the size of the written file. *)
Definition whole_run (g : Gen) (real_model : loc) (size : nat) : list Event :=
  [ EvImport "torch";
    EvImport "demucs.pretrained";
    EvImport "warnings";
    EvPrint (nl +:+ "Loading " +:+ name +:+ "...");
    EvGetModel name;
    EvPrint "Wrapping model (STFT internalized)...";
    EvRandn [1; 2; segment];
    EvPrint ("Exporting to " +:+ output_file
             +:+ "  (this may take a few minutes)...");
    EvExport (export_call (WaveformOnlyWrapper_init real_model) (drawn g));
    EvImport "os";
    EvPrint (nl +:+ "  Export complete: " +:+ output_file
             +:+ "  (" +:+ format_mb size +:+ " MB)");
    EvPrint "";
    EvPrint "  Next step — build the TRT engine for your GPU:";
    EvPrint "    python build_engine.py --onnx htdemucs_6s_waveform.onnx";
    EvPrint "";
    EvPrint "  Or rename it and use the default:";
    EvPrint ("    rename " +:+ output_file +:+ " demucsv4.onnx");
    EvPrint "    python build_engine.py";
    EvPrint "" ].

(** [wpt m Q E w]: as [wp], with the trace (warnings left out) handed to
    the postconditions. *)
Definition wpt {A} (m : M A) (Q : list Event -> A -> World -> Prop)
    (E : list Event -> World -> Prop) (w : World) : Prop :=
  match value (m w) with
  | inr a => Q (without_warnings (trace (m w))) a (final (m w))
  | inl _ => E (without_warnings (trace (m w))) (final (m w))
  end.


(* ===================================================================== *)
(** ** Runs and their rules *)
(* ===================================================================== *)

Lemma run_bind {A B} (m : M A) (k : A -> M B) w :
  (m ≫= k) w =
  match value (m w) with
  | inl err => MkOutcome (trace (m w)) (final (m w)) (inl err)
  | inr a =>
      MkOutcome (trace (m w) ++ trace (k a (final (m w))))
                (final (k a (final (m w))))
                (value (k a (final (m w))))
  end.
Proof. reflexivity. Qed.

Lemma bind_raises {A B} (m : M A) (k : A -> M B) w err :
  value (m w) = inl err ->
  (m ≫= k) w = MkOutcome (trace (m w)) (final (m w)) (inl err).
Proof. intros H. rewrite run_bind, H. reflexivity. Qed.

Lemma bind_returns {A B} (m : M A) (k : A -> M B) w a :
  value (m w) = inr a ->
  (m ≫= k) w =
  MkOutcome (trace (m w) ++ trace (k a (final (m w))))
            (final (k a (final (m w))))
            (value (k a (final (m w)))).
Proof. intros H. rewrite run_bind, H. reflexivity. Qed.




Lemma final_bind_return {A B} (m : M A) (k : A -> M B) w a :
  value (m w) = inr a -> final ((m ≫= k) w) = final (k a (final (m w))).
Proof. intros H. rewrite run_bind, H. reflexivity. Qed.

Section Rules.

Variable P : Event -> Prop.
Variable E : World -> Prop.

Lemma wp_ret {A} (a : A) (Q : A -> World -> Prop) w :
  Q a w -> wp (mret a) P Q E w.
Proof. intros H. split; [constructor | exact H]. Qed.

Lemma wp_raise {A} (err : Exn) (Q : A -> World -> Prop) w :
  E w -> wp (raise err) P Q E w.
Proof. intros H. split; [constructor | exact H]. Qed.

Lemma wp_bind {A B} (m : M A) (k : A -> M B) (Q : B -> World -> Prop) w :
  wp m P (fun a w' => wp (k a) P Q E w') E w -> wp (m ≫= k) P Q E w.
Proof.
  intros [Ht Hv]. unfold wp. rewrite run_bind.
  destruct (value (m w)) as [err|a]; simpl.
  - split; assumption.
  - destruct Hv as [Ht' Hv']. split; [|exact Hv'].
    apply Forall_app. split; assumption.
Qed.

Lemma wp_emit e (Q : unit -> World -> Prop) w :
  P e -> Q tt w -> wp (emit e) P Q E w.
Proof. intros He H. split; [repeat constructor; exact He | exact H]. Qed.

Lemma wp_get {A} (k : World -> M A) (Q : A -> World -> Prop) w :
  wp (k w) P Q E w -> wp (get_world ≫= k) P Q E w.
Proof. intros H. apply wp_bind. split; [constructor | exact H]. Qed.

Lemma wp_modify (f : World -> World) (Q : unit -> World -> Prop) w :
  Q tt (f w) -> wp (modify f) P Q E w.
Proof. intros H. split; [constructor | exact H]. Qed.

Lemma wp_warn x (Q : unit -> World -> Prop) w :
  shown_ok P w -> Q tt w -> E w -> wp (warnings_warn x) P Q E w.
Proof.
  intros Hok HQ HE. unfold warnings_warn. apply wp_get.
  specialize (Hok x).
  destruct (resolve (filters w) x);
    first [ apply wp_raise; exact HE
          | apply wp_ret; exact HQ
          | apply wp_emit; [apply Hok; discriminate | exact HQ] ].
Qed.

Lemma wp_warn_all xs (Q : unit -> World -> Prop) w :
  shown_ok P w -> Q tt w -> E w -> wp (warn_all xs) P Q E w.
Proof.
  intros Hok HQ HE. induction xs as [|x rest IH]; simpl.
  - apply wp_ret, HQ.
  - apply wp_bind, wp_warn; [exact Hok | exact IH | exact HE].
Qed.

(** A library routine leaves the world as it is. *)
Lemma wp_lib {A} (r : Lib A) (Q : A -> World -> Prop) w :
  shown_ok P w -> (forall a, r.2 = inr a -> Q a w) -> E w ->
  wp (lib r) P Q E w.
Proof.
  intros Hok HQ HE. unfold lib. apply wp_bind, wp_warn_all; try assumption.
  destruct (r.2) as [err|a]; [apply wp_raise, HE | apply wp_ret, HQ].
  reflexivity.
Qed.

Lemma wp_print s (Q : unit -> World -> Prop) w :
  P (EvPrint s) -> Q tt w -> wp (print s) P Q E w.
Proof. apply wp_emit. Qed.

Lemma wp_import m (Q : unit -> World -> Prop) w :
  P (EvImport m) -> shown_ok P w -> Q tt w -> E w ->
  wp (import_ m) P Q E w.
Proof.
  intros Hm Hok HQ HE. unfold import_. apply wp_bind, wp_emit; [exact Hm|].
  apply wp_lib; [exact Hok | intros [] _; exact HQ | exact HE].
Qed.

Lemma wp_filterwarnings action category (Q : unit -> World -> Prop) w :
  Q tt (set_filters
          (MkFilter action None category None 0
           :: remove_first (MkFilter action None category None 0) (filters w))
          w) ->
  wp (warnings_filterwarnings action category) P Q E w.
Proof. apply wp_modify. Qed.

Lemma wp_getitem xs i (Q : loc -> World -> Prop) w :
  (forall l, xs !! i = Some l -> Q l w) -> E w -> wp (getitem xs i) P Q E w.
Proof.
  intros HQ HE. unfold getitem.
  destruct (xs !! i); [apply wp_ret, HQ; reflexivity | apply wp_raise, HE].
Qed.

Lemma wp_getsize path (Q : nat -> World -> Prop) w :
  (forall c, files w !! path = Some c -> Q (length c) w) -> E w ->
  wp (os_path_getsize path) P Q E w.
Proof.
  intros HQ HE. unfold os_path_getsize. apply wp_get.
  destruct (files w !! path);
    [apply wp_ret, HQ; reflexivity | apply wp_raise, HE].
Qed.

Lemma wp_write path content (Q : unit -> World -> Prop) w :
  (disk_fault path content = None ->
   Q tt (set_files (<[path := content]> (files w)) w)) ->
  (forall c, E (set_files (<[path := c]> (files w)) w)) -> E w ->
  wp (write_file path content) P Q E w.
Proof.
  intros HQ HE1 HE2. unfold write_file.
  destruct (disk_fault path content) as [[err [part|]]|].
  - apply wp_bind, wp_modify, wp_raise, HE1.
  - apply wp_bind, wp_ret, wp_raise, HE2.
  - apply wp_modify, HQ. reflexivity.
Qed.

Lemma wp_alloc st (Q : loc -> World -> Prop) w :
  Q (fresh (dom (heap w)))
    (set_heap (<[fresh (dom (heap w)) := st]> (heap w)) w) ->
  wp (alloc st) P Q E w.
Proof. intros H. split; [constructor | exact H]. Qed.

(** Allocation stores the given states at new references and leaves the
    objects already there alone. *)
Lemma wp_alloc_modules sts (Q : list loc -> World -> Prop) w :
  (forall ls h,
     Forall2 (fun l st => h !! l = Some st) ls sts ->
     (forall l st, heap w !! l = Some st -> h !! l = Some st) ->
     Q ls (set_heap h w)) ->
  wp (alloc_modules sts) P Q E w.
Proof.
  revert Q w. induction sts as [|st rest IH]; intros Q w HQ; simpl.
  - apply wp_ret. destruct w. apply (HQ [] _); [constructor | auto].
  - apply wp_bind, wp_alloc, wp_bind, IH. intros ls h Hls Hold.
    apply wp_ret. simpl in *.
    assert (Hfresh : heap w !! fresh (dom (heap w)) = None).
    { apply not_elem_of_dom, is_fresh. }
    apply (HQ (_ :: ls) h).
    + constructor; [|exact Hls]. apply Hold, lookup_insert_eq.
    + intros l st' Hl. apply Hold. rewrite lookup_insert_ne; [exact Hl|].
      intros <-. congruence.
Qed.

Lemma wp_method {A} (l : loc) (f : ModuleState -> ModuleState * Lib A)
    (Q : A -> World -> Prop) w :
  shown_ok P w ->
  (forall st, heap w !! l = Some st ->
     (forall a, (f st).2.2 = inr a ->
        Q a (set_heap (<[l := (f st).1]> (heap w)) w)) /\
     E (set_heap (<[l := (f st).1]> (heap w)) w)) ->
  E w ->
  wp (method l f) P Q E w.
Proof.
  intros Hok HQ HE. unfold method. apply wp_get.
  destruct (heap w !! l) as [st|]; [|apply wp_raise, HE].
  destruct (HQ st eq_refl) as [HQ' HE'].
  apply wp_bind, wp_modify, wp_lib; [exact Hok | exact HQ' | exact HE'].
Qed.

Lemma wp_randn size (Q : Tensor -> World -> Prop) w :
  P (EvRandn size) ->
  Q (MkTensor size (sample_normal (generator w) size).1)
    (set_generator (sample_normal (generator w) size).2 w) ->
  wp (torch_randn size) P Q E w.
Proof.
  intros Hp HQ. unfold torch_randn. apply wp_bind, wp_emit; [exact Hp|].
  apply wp_get, wp_bind, wp_modify, wp_ret, HQ.
Qed.

End Rules.

(** Symbolic execution: one rule per head of the program. *)
Ltac wp_rule :=
  lazymatch goal with
  | |- wp (import_ _) _ _ _ _ => apply wp_import
  | |- wp (print _) _ _ _ _ => apply wp_print
  | |- wp (lib _) _ _ _ _ => apply wp_lib
  | |- wp (getitem _ _) _ _ _ _ => apply wp_getitem
  | |- wp (os_path_getsize _) _ _ _ _ => apply wp_getsize
  | |- wp (write_file _ _) _ _ _ _ => apply wp_write
  | |- wp (alloc_modules _) _ _ _ _ => apply wp_alloc_modules
  | |- wp (Module_cpu _) _ _ _ _ => apply wp_method
  | |- wp (Module_eval _) _ _ _ _ => apply wp_method
  | |- wp (Module_spec _ _) _ _ _ _ => apply wp_method
  | |- wp (Module_call _ _ _) _ _ _ _ => apply wp_method
  | |- wp (torch_randn _) _ _ _ _ => apply wp_randn
  | |- wp (warnings_filterwarnings _ _) _ _ _ _ => apply wp_filterwarnings
  | |- wp (emit _) _ _ _ _ => apply wp_emit
  | |- wp get_world _ _ _ _ => apply wp_ret
  | |- wp (mret _) _ _ _ _ => apply wp_ret
  | |- wp (raise _) _ _ _ _ => apply wp_raise
  | |- wp (get_world ≫= _) _ _ _ _ => apply wp_get
  | |- wp (_ ≫= _) _ _ _ _ => apply wp_bind
  | |- wp imports _ _ _ _ => unfold imports
  | |- wp install_filter _ _ _ _ => unfold install_filter
  | |- wp load_model _ _ _ _ => unfold load_model
  | |- wp (get_model _) _ _ _ _ => unfold get_model
  | |- wp (wrap_model _) _ _ _ _ => unfold wrap_model
  | |- wp (export_model _) _ _ _ _ => unfold export_model
  | |- wp (torch_onnx_export _) _ _ _ _ => unfold torch_onnx_export
  | |- wp (forward _ _) _ _ _ _ => unfold forward
  | |- wp report _ _ _ _ => unfold report
  | |- wp script _ _ _ _ => unfold script
  end.

(** Run the rules to the end; [side] closes what is not a [wp] goal. *)
Ltac wp_run side :=
  cbv beta;
  unfold set_filters, set_files, set_generator, set_heap;
  cbn [argv environ filters files generator heap];
  lazymatch goal with
  | |- wp _ _ _ _ _ => wp_rule; wp_run side
  | |- _ =>
      first [ solve [side]
            | lazymatch goal with
              | |- _ /\ _ => split; wp_run side
              | |- forall _, _ => intro; wp_run side
              end
            | idtac ]
  end.

(* ===================================================================== *)
(** ** The export call *)
(* ===================================================================== *)

Lemma export_events_Forall (R : ExportCall -> Prop) (t : list Event) :
  Forall (on_export R) t -> Forall R (export_events t).
Proof.
  induction 1 as [|e t He _ IH]; [constructor|].
  unfold export_events. simpl. destruct e; try exact IH.
  constructor; [apply He; reflexivity | exact IH].
Qed.

Lemma wp_trace {A} (m : M A) P Q E w :
  wp m P Q E w -> Forall P (trace (m w)).
Proof. intros [H _]. exact H. Qed.

Lemma export_call_declares (wrapped_model : WaveformOnlyWrapper)
    (dummy_input : Tensor) :
  shape dummy_input = [1; 2; 343980] ->
  declares (export_call wrapped_model dummy_input).
Proof.
  intros Hs. unfold declares, export_call. cbn.
  repeat split; try exact Hs; vm_compute; reflexivity.
Qed.

(** Side conditions of a run whose only events of interest are the
    export calls. *)
Ltac export_side :=
  idtac;
  lazymatch goal with
  | |- True => exact I
  | |- shown_ok (on_export _) _ => intros ? _ ? [=]
  | |- on_export _ (EvExport _) => intros ? [= <-]
  | |- on_export _ _ => intros ? [=]
  end.

(** C2. Every export call the script issues asks for opset 17, names
    one input [input] and one output [output], marks as dynamic axes 0 and
    2 of the input and 0 and 3 of the output (batch, time), and traces on
    a dummy input of shape (1, 2, 343980). *)
Theorem export_call_declarations (w : World) :
  Forall declares (export_events (trace (script w))).
Proof.
  apply export_events_Forall.
  apply (wp_trace _ _ (fun _ _ => True) (fun _ => True)).
  wp_run ltac:(export_side; try (apply export_call_declares; reflexivity)).
Qed.

(* ===================================================================== *)
(** ** The dummy input *)
(* ===================================================================== *)

Lemma script_traces_draw (w : World) :
  Forall (fun c => ex_args c = drawn (generator w))
         (export_events (trace (script w))).
Proof.
  apply export_events_Forall.
  apply (wp_trace _ _ (fun _ _ => True) (fun _ => True)).
  wp_run ltac:(export_side; try reflexivity).
Qed.

(** C9. The script never seeds the generator: the dummy input it traces
    on is what the generator state of the process yields.  Any two runs
    trace on the shape (1, 2, 343980); their contents are those drawn
    from the two generator states, and differ whenever these draws do. *)
Theorem dummy_input_unseeded (w1 w2 : World) (i j : nat)
    (c1 c2 : ExportCall) :
  export_events (trace (script w1)) !! i = Some c1 ->
  export_events (trace (script w2)) !! j = Some c2 ->
  shape (ex_args c1) = [1; 2; 343980] /\
  shape (ex_args c2) = [1; 2; 343980] /\
  data (ex_args c1) = (sample_normal (generator w1) [1; 2; 343980]).1 /\
  data (ex_args c2) = (sample_normal (generator w2) [1; 2; 343980]).1 /\
  ((sample_normal (generator w1) [1; 2; 343980]).1
     <> (sample_normal (generator w2) [1; 2; 343980]).1 ->
   ex_args c1 <> ex_args c2).
Proof.
  intros H1 H2.
  pose proof (script_traces_draw w1) as D1.
  pose proof (script_traces_draw w2) as D2.
  rewrite Forall_lookup in D1, D2.
  rewrite (D1 _ _ H1), (D2 _ _ H2). unfold drawn. simpl.
  repeat split. intros Hne [= Heq]. exact (Hne Heq).
Qed.

(* ===================================================================== *)
(** ** Warnings *)
(* ===================================================================== *)

(** With the script's filter in front, no [UserWarning] gets through. *)
Lemma ignore_in_front (fs : list WFilter) (w : World) :
  filters w = MkFilter ActIgnore None UserWarning None 0 :: fs ->
  shown_ok quiet w.
Proof.
  intros Hf x Hx y [= <-]. rewrite Hf in Hx. simpl in Hx.
  unfold filter_applies in Hx. simpl in Hx.
  destruct (issubclass (w_category x) UserWarning); [|reflexivity].
  simpl in Hx. congruence.
Qed.

(** C10. The filter is installed after the imports and before the
    loader runs: the trace of the script is the trace of the imports
    (imports and their warnings only) followed by a part in which no
    warning of category [UserWarning] or of a subclass is shown, whatever
    the loader, the model and the exporter issue. *)
Theorem user_warnings_suppressed (w : World) :
  exists t,
    trace (script w) = trace (imports w) ++ t /\
    Forall import_event (trace (imports w)) /\
    Forall quiet t.
Proof.
  assert (Hi : Forall import_event (trace (imports w))).
  { apply (wp_trace _ _ (fun _ _ => True) (fun _ => True)).
    wp_run ltac:(first [ exact I | intros ? _; exact I ]). }
  unfold script.
  destruct (value (imports w)) as [err|[]] eqn:Ev.
  - rewrite (bind_raises _ _ _ _ Ev). cbn [trace].
    exists []. rewrite app_nil_r. repeat split; [exact Hi | constructor].
  - rewrite (bind_returns _ _ _ _ Ev). cbn [trace].
    eexists. split; [reflexivity|]. split; [exact Hi|].
    generalize (final (imports w)) as w1. intros w1.
    apply (wp_trace _ _ (fun _ _ => True) (fun _ => True)).
    wp_run ltac:(idtac; lazymatch goal with
                 | |- shown_ok _ _ => eapply ignore_in_front; reflexivity
                 | |- quiet _ => intros ? [=]
                 | |- True => exact I
                 end).
Qed.

(* ===================================================================== *)
(** ** The wrapper *)
(* ===================================================================== *)

Lemma wp_value {A} (m : M A) P Q E w a :
  wp m P Q E w -> value (m w) = inr a -> Q a (final (m w)).
Proof. intros [_ H] Hv. rewrite Hv in H. exact H. Qed.

Lemma warn_all_returns xs w :
  no_error_filter w ->
  value (warn_all xs w) = inr tt /\ final (warn_all xs w) = w.
Proof.
  intros Hne. induction xs as [|x rest [IHv IHf]]; [split; reflexivity|].
  cbn [warn_all]. rewrite run_bind.
  assert (Hx : value (warnings_warn x w) = inr tt
               /\ final (warnings_warn x w) = w).
  { unfold warnings_warn. rewrite run_bind. cbn.
    specialize (Hne x). destruct (resolve (filters w) x);
      first [ congruence | split; reflexivity ]. }
  destruct Hx as [-> ->]. cbn [value final]. split; assumption.
Qed.

Lemma lib_returns {A} (r : Lib A) w :
  no_error_filter w -> value (lib r w) = r.2 /\ final (lib r w) = w.
Proof.
  intros Hne. unfold lib. rewrite run_bind.
  destruct (warn_all_returns r.1 w Hne) as [-> ->].
  destruct (r.2); split; reflexivity.
Qed.

Lemma method_returns {A} (l : loc)
    (f : ModuleState -> ModuleState * Lib A) w st :
  no_error_filter w -> heap w !! l = Some st ->
  value (method l f w) = (f st).2.2 /\
  final (method l f w) = set_heap (<[l := (f st).1]> (heap w)) w.
Proof.
  intros Hne Hl. unfold method. rewrite run_bind. cbn. rewrite Hl.
  rewrite run_bind. cbn.
  destruct (lib_returns (f st).2
              (set_heap (<[l := (f st).1]> (heap w)) w) Hne) as [-> ->].
  destruct ((f st).2.2); split; reflexivity.
Qed.

(** C1. The wrapper is a pure refactor of the direct two-input call: on
    every waveform and in every world, [forward] behaves as the direct
    call on the wrapped model does (same events, same final world, same
    result or exception); and where no filter escalates warnings, its
    result is the model's two-input routine applied to the waveform and to
    the model's own transform of that waveform. *)
Theorem wrapper_is_pure_refactor (self : WaveformOnlyWrapper)
    (input_waveform : Tensor) (w : World) :
  forward self input_waveform w
    = direct_two_input_call (model self) input_waveform w /\
  forall st,
    heap w !! model self = Some st -> no_error_filter w ->
    value (forward self input_waveform w) = direct_result st input_waveform.
Proof.
  split; [reflexivity|]. intros st Hl Hne.
  unfold forward, direct_result, Module_spec, Module_call.
  rewrite run_bind.
  destruct (method_returns (model self)
              (fun st => HTDemucs_spec st input_waveform) w st Hne Hl)
    as [-> ->].
  destruct ((HTDemucs_spec st input_waveform).2.2) as [err|z];
    [reflexivity|].
  cbn [value].
  apply (method_returns (model self)
           (fun st => HTDemucs_call st input_waveform z)).
  - exact Hne.
  - apply lookup_insert_eq.
Qed.

Ltac any_side :=
  idtac;
  lazymatch goal with
  | |- True => exact I
  | |- any_event _ => exact I
  | |- shown_ok any_event _ => intros ? _; exact I
  end.

(* ===================================================================== *)
(** ** Loading *)
(* ===================================================================== *)

Ltac asks_side :=
  idtac;
  lazymatch goal with
  | |- True => exact I
  | |- shown_ok (asks_for _) _ => intros ? _ ? [=]
  | |- asks_for _ (EvGetModel _) => intros ? [= <-]; reflexivity
  | |- asks_for _ _ => intros ? [=]
  end.

Lemma load_model_spec (w : World) :
  wp load_model (asks_for "htdemucs_6s")
    (fun l w' => exists ws sts st0,
       pretrained "htdemucs_6s" = (ws, inr sts) /\
       sts !! 0%nat = Some st0 /\
       heap w' !! l = Some (MkModule (params st0) CPU false))
    (fun _ => True) w.
Proof.
  wp_run asks_side.
  match goal with
  | Hall : Forall2 _ ?ls ?sts, H0 : models _ !! 0%nat = Some ?l |- _ =>
      destruct (Forall2_lookup_l _ _ _ _ _ Hall H0) as (st' & Hst' & Hh)
  end.
  cbn [heap set_heap fst] in *.
  repeat match goal with
         | H : <[?l := _]> _ !! ?l = Some _ |- _ =>
             rewrite lookup_insert_eq in H
         end.
  simplify_eq. cbn [params device training].
  match goal with
  | Hp : (pretrained name).2 = inr ?sts, Hs : ?sts !! 0%nat = Some ?s |- _ =>
      exists (pretrained "htdemucs_6s").1, sts, s
  end.
  repeat split.
  - unfold name in *.
    destruct (pretrained "htdemucs_6s") as [ws r]. simpl in *. congruence.
  - assumption.
  - apply lookup_insert_eq.
Qed.

(** C4. Loading asks the registry for the fixed name only; when it
    returns, the model it returns is the first constituent of the
    ensemble stored under that name, with the weights the registry gave,
    on CPU and in evaluation mode.  Wrapping changes nothing of that
    state, and the export call is issued on the heap loading left. *)
Theorem loaded_model_ready (w : World) :
  Forall (asks_for "htdemucs_6s") (trace (load_model w)) /\
  forall real_model,
    value (load_model w) = inr real_model ->
    (exists ws sts st0,
       pretrained "htdemucs_6s" = (ws, inr sts) /\
       sts !! 0%nat = Some st0 /\
       heap (final (load_model w)) !! real_model
         = Some (MkModule (params st0) CPU false)) /\
    (forall w1,
       @wrap_model Data Params Gen real_model w1
         = MkOutcome [EvPrint "Wrapping model (STFT internalized)..."] w1
                     (inr (WaveformOnlyWrapper_init real_model))) /\
    (forall w1,
       let dummy_input := drawn (generator w1) in
       let w2 :=
         set_generator (sample_normal (generator w1) [1; 2; segment]).2 w1 in
       let r :=
         torch_onnx_export
           (export_call (WaveformOnlyWrapper_init real_model) dummy_input)
           w2 in
       heap w2 = heap w1 /\
       export_model (WaveformOnlyWrapper_init real_model) w1
         = MkOutcome
             (EvRandn [1; 2; segment]
              :: EvPrint ("Exporting to htdemucs_6s_waveform.onnx"
                          +:+ "  (this may take a few minutes)...")
              :: trace r)
             (final r) (value r)).
Proof.
  split; [apply (wp_trace _ _ _ _ _ (load_model_spec w))|].
  intros real_model Hv. split; [|split].
  - exact (wp_value _ _ _ _ _ _ (load_model_spec w) Hv).
  - intros w1. reflexivity.
  - intros w1. split; reflexivity.
Qed.

(* ===================================================================== *)
(** ** The model's parameters *)
(* ===================================================================== *)

Lemma same_weights_refl h : same_weights h h.
Proof. intros l p H. exact H. Qed.

Lemma same_weights_insert h h' (l : loc) st st' :
  same_weights h h' -> h' !! l = Some st -> params st' = params st ->
  same_weights h (<[l := st']> h').
Proof.
  intros Hh Hl Hp l' p H. specialize (Hh l' p H).
  destruct (decide (l = l')) as [<-|Hne].
  - rewrite lookup_insert_eq. rewrite Hl in Hh. simpl in *. congruence.
  - rewrite lookup_insert_ne; assumption.
Qed.

Lemma same_weights_alloc h h1 h2 :
  same_weights h h1 ->
  (forall (l : loc) st, h1 !! l = Some st -> h2 !! l = Some st) ->
  same_weights h h2.
Proof.
  intros Hh Hext l p H. specialize (Hh l p H).
  destruct (h1 !! l) as [st|] eqn:E; [|discriminate].
  rewrite (Hext l st E). exact Hh.
Qed.

Lemma wp_final {A} (m : M A) P (J : World -> Prop) w :
  wp m P (fun _ => J) J w -> J (final (m w)).
Proof. intros [_ H]. destruct (value (m w)); exact H. Qed.

Section Weights.

(** The model's own routines read the weights and do not write them. *)
Hypothesis spec_reads :
  forall st (wave : Tensor), params (HTDemucs_spec st wave).1 = params st.
Hypothesis call_reads :
  forall st (wave z : Tensor), params (HTDemucs_call st wave z).1 = params st.

Ltac weights_tac :=
  cbn [heap set_heap set_filters set_files set_generator];
  first
    [ apply same_weights_refl
    | eapply same_weights_insert;
        [ weights_tac
        | eassumption
        | first [ apply spec_reads | apply call_reads | reflexivity ] ]
    | eapply same_weights_alloc; [ weights_tac | eassumption ] ].

Ltac weights_side :=
  idtac;
  lazymatch goal with
  | |- True => exact I
  | |- any_event _ => exact I
  | |- shown_ok any_event _ => intros ? _; exact I
  | |- same_weights _ _ => weights_tac
  end.

Lemma weights_kept {A} (m : M A) w :
  wp m any_event (fun _ w' => same_weights (heap w) (heap w'))
     (fun w' => same_weights (heap w) (heap w')) w ->
  forall l p, parameters w l = Some p -> parameters (final (m w)) l = Some p.
Proof. intros H l p. apply (wp_final _ _ _ _ H). Qed.

(** C6. Provided the model's own routines leave the weights as they
    are, nothing the script does changes the weights of any module
    object: not moving the model to CPU or to evaluation mode, not the
    construction of the wrapper (which stores a reference and nothing
    else), not a forward call, not the export, not the part of the script
    that follows loading, and not the script as a whole. *)
Theorem parameters_never_modified (w : World) (l : loc) (p : Params) :
  parameters w l = Some p ->
  (forall m, parameters (final (Module_cpu m w)) l = Some p) /\
  (forall m, parameters (final (Module_eval m w)) l = Some p) /\
  (forall m, final (@wrap_model Data Params Gen m w) = w /\
             value (@wrap_model Data Params Gen m w)
               = inr (WaveformOnlyWrapper_init m)) /\
  (forall self wave, parameters (final (forward self wave w)) l = Some p) /\
  (forall c, parameters (final (torch_onnx_export c w)) l = Some p) /\
  (forall m,
     parameters
       (final ((wrapped_model ← wrap_model m;
                export_model wrapped_model;; report) w)) l = Some p) /\
  parameters (final (script w)) l = Some p.
Proof.
  intros Hp. repeat split; intros;
    try (revert l p Hp; apply weights_kept; wp_run weights_side).
Qed.

End Weights.

(* ===================================================================== *)
(** ** The output file *)
(* ===================================================================== *)

Lemma script_writes (w : World) :
  wp script any_event
     (fun _ w' => exists graph,
        serialised graph /\
        files w' = <["htdemucs_6s_waveform.onnx" := graph]> (files w))
     (fun _ => True) w.
Proof.
  wp_run any_side.
  eexists. split; [|reflexivity].
  eexists _, _, _. split; [|eassumption].
  apply export_call_declares. reflexivity.
Qed.

(** C7. A run that completes has written the serialised graph to the
    fixed path [htdemucs_6s_waveform.onnx], replacing whatever the disk
    held there, and has changed no other path.  A second run on the disk
    the first one left writes to that same path again: its disk is the
    original one with the second graph at that path. *)
Theorem export_overwrites_fixed_path (w w' : World) :
  value (script w) = inr tt ->
  (exists graph,
     serialised graph /\
     files (final (script w))
       = <["htdemucs_6s_waveform.onnx" := graph]> (files w)) /\
  (files w' = files (final (script w)) ->
   value (script w') = inr tt ->
   exists graph',
     serialised graph' /\
     files (final (script w'))
       = <["htdemucs_6s_waveform.onnx" := graph']> (files w)).
Proof.
  intros Hv.
  destruct (wp_value _ _ _ _ _ _ (script_writes w) Hv) as (g & Hg & Hf).
  split; [exists g; split; assumption|].
  intros Hw' Hv'.
  destruct (wp_value _ _ _ _ _ _ (script_writes w') Hv') as (g' & Hg' & Hf').
  exists g'. split; [exact Hg'|].
  rewrite Hf', Hw', Hf. apply insert_insert_eq.
Qed.

(* ===================================================================== *)
(** ** Failures *)
(* ===================================================================== *)












(* ===================================================================== *)
(** ** A model that takes the waveform alone *)
(* ===================================================================== *)


(* ===================================================================== *)
(** ** Configuration *)
(* ===================================================================== *)

Lemma blind_ret {A} (v : A) : blind (mret v : M A).
Proof. intros a env w. reflexivity. Qed.

Lemma blind_raise {A} err : blind (raise err : M A).
Proof. intros a env w. reflexivity. Qed.

Lemma blind_emit e : blind (emit e).
Proof. intros a env w. reflexivity. Qed.

Lemma blind_bind {A B} (m : M A) (k : A -> M B) :
  blind m -> (forall v, blind (k v)) -> blind (m ≫= k).
Proof.
  intros Hm Hk a env w.
  rewrite (run_bind m k (set_invocation a env w)), (run_bind m k w).
  rewrite (Hm a env w). cbn [value final trace].
  destruct (value (m w)) as [err|v]; [reflexivity|].
  rewrite (Hk v a env (final (m w))). reflexivity.
Qed.

Lemma blind_get {A} (k : World -> M A) :
  (forall a env w,
     k (set_invocation a env w) (set_invocation a env w)
     = MkOutcome (trace (k w w)) (set_invocation a env (final (k w w)))
                 (value (k w w))) ->
  blind (get_world ≫= k).
Proof.
  intros Hk a env w.
  rewrite (run_bind get_world k (set_invocation a env w)).
  rewrite (run_bind get_world k w).
  cbn [get_world value final trace app]. rewrite (Hk a env w).
  reflexivity.
Qed.

Lemma blind_warn x : blind (warnings_warn x).
Proof.
  intros a env w. unfold warnings_warn. rewrite !run_bind. cbn.
  destruct (resolve (filters w) x); reflexivity.
Qed.

Lemma blind_warn_all xs : blind (warn_all xs).
Proof.
  induction xs as [|x rest IH]; [apply blind_ret|].
  apply blind_bind; [apply blind_warn | intros _; exact IH].
Qed.

Lemma blind_lib {A} (r : Lib A) : blind (lib r).
Proof.
  unfold lib. apply blind_bind; [apply blind_warn_all|]. intros _.
  destruct (r.2); [apply blind_raise | apply blind_ret].
Qed.

Lemma blind_import m : blind (import_ m).
Proof.
  unfold import_. apply blind_bind; [apply blind_emit|].
  intros _. apply blind_lib.
Qed.

Lemma blind_filterwarnings action category :
  blind (warnings_filterwarnings action category).
Proof. intros a env w. reflexivity. Qed.

Lemma blind_getitem xs i : blind (getitem xs i).
Proof.
  unfold getitem. destruct (xs !! i); [apply blind_ret | apply blind_raise].
Qed.

Lemma blind_getsize path : blind (os_path_getsize path).
Proof.
  intros a env w. unfold os_path_getsize. rewrite !run_bind. cbn.
  destruct (files w !! path); reflexivity.
Qed.

Lemma blind_write path content : blind (write_file path content).
Proof.
  intros a env w. unfold write_file.
  destruct (disk_fault path content) as [[err [part|]]|]; reflexivity.
Qed.

Lemma blind_alloc st : blind (alloc st).
Proof. intros a env w. reflexivity. Qed.

Lemma blind_alloc_modules sts : blind (alloc_modules sts).
Proof.
  induction sts as [|st rest IH]; [apply blind_ret|].
  cbn [alloc_modules]. apply blind_bind; [apply blind_alloc|].
  intros l. apply blind_bind; [exact IH|]. intros ls. apply blind_ret.
Qed.

Lemma blind_method {A} (l : loc) (f : ModuleState -> ModuleState * Lib A) :
  blind (method l f).
Proof.
  intros a env w. unfold method. rewrite !(run_bind get_world). cbn.
  destruct (heap w !! l) as [st|]; [|reflexivity].
  rewrite !(run_bind (modify _)). cbn.
  change (set_heap (<[l := (f st).1]> (heap w)) (set_invocation a env w))
    with (set_invocation a env (set_heap (<[l := (f st).1]> (heap w)) w)).
  rewrite (blind_lib (f st).2 a env
             (set_heap (<[l := (f st).1]> (heap w)) w)).
  reflexivity.
Qed.

Lemma blind_randn size : blind (torch_randn size).
Proof. intros a env w. reflexivity. Qed.

Lemma blind_forward self wave : blind (forward self wave).
Proof.
  unfold forward. apply blind_bind; [apply blind_method|].
  intros z. apply blind_method.
Qed.

Lemma blind_export c : blind (torch_onnx_export c).
Proof.
  unfold torch_onnx_export. apply blind_bind; [apply blind_emit|].
  intros _. apply blind_bind; [apply blind_forward|]. intros out.
  apply blind_get. intros a env w. cbn [heap set_invocation].
  apply (blind_bind (lib (onnx_graph c (heap w) out))
           (fun graph => write_file (ex_f c) graph)).
  - apply blind_lib.
  - intros graph. apply blind_write.
Qed.

Ltac blind_rule :=
  lazymatch goal with
  | |- blind (import_ _) => apply blind_import
  | |- blind (print _) => apply blind_emit
  | |- blind (emit _) => apply blind_emit
  | |- blind (lib _) => apply blind_lib
  | |- blind (getitem _ _) => apply blind_getitem
  | |- blind (os_path_getsize _) => apply blind_getsize
  | |- blind (alloc_modules _) => apply blind_alloc_modules
  | |- blind (Module_cpu _) => apply blind_method
  | |- blind (Module_eval _) => apply blind_method
  | |- blind (torch_randn _) => apply blind_randn
  | |- blind (torch_onnx_export _) => apply blind_export
  | |- blind (warnings_filterwarnings _ _) => apply blind_filterwarnings
  | |- blind (mret _) => apply blind_ret
  | |- blind (_ ≫= _) => apply blind_bind; [|intro]
  end.

Lemma blind_script : blind script.
Proof.
  unfold script, imports, install_filter, load_model, get_model, wrap_model,
    export_model, report.
  repeat blind_rule.
Qed.

Ltac fixed_side :=
  idtac;
  lazymatch goal with
  | |- True => exact I
  | |- shown_ok fixed_parameters _ => intros ? _; exact I
  | |- fixed_parameters (EvExport _) => repeat split; reflexivity
  | |- fixed_parameters _ => first [ exact I | reflexivity ]
  end.

(** C8. The model name, the output file name, the shape of the dummy
    input and the opset version that reach the libraries are the
    constants of the script in every run; and a run does not depend on how
    the script was invoked: with other command-line arguments and another
    environment it emits the same events and ends with the same result in
    the same world. *)
Theorem configuration_is_fixed (w : World) :
  Forall fixed_parameters (trace (script w)) /\
  forall a env,
    script (set_invocation a env w)
    = MkOutcome (trace (script w))
                (set_invocation a env (final (script w)))
                (value (script w)).
Proof.
  split.
  - apply (wp_trace _ _ (fun _ _ => True) (fun _ => True)).
    wp_run fixed_side.
  - intros a env. apply blind_script.
Qed.

(* ===================================================================== *)
(** ** The run as a whole *)
(* ===================================================================== *)

Lemma without_warnings_app (t t' : list Event) :
  without_warnings (t ++ t') = without_warnings t ++ without_warnings t'.
Proof. apply omap_app. Qed.

Lemma without_warnings_only (t : list Event) :
  Forall warning_only t -> without_warnings t = [].
Proof.
  induction 1 as [|e t He _ IH]; [reflexivity|].
  destruct e; try destruct He. exact IH.
Qed.

Section TraceRules.

Variable E : list Event -> World -> Prop.

Lemma wpt_ret {A} (a : A) (Q : list Event -> A -> World -> Prop) w :
  Q [] a w -> wpt (mret a) Q E w.
Proof. intros H. exact H. Qed.

Lemma wpt_raise {A} (err : Exn) (Q : list Event -> A -> World -> Prop) w :
  E [] w -> wpt (raise err) Q E w.
Proof. intros H. exact H. Qed.

Lemma wpt_emit e (Q : list Event -> unit -> World -> Prop) w :
  without_warnings [e] = [e] -> Q [e] tt w -> wpt (emit e) Q E w.
Proof. intros He H. unfold wpt. cbn [emit value trace final]. rewrite He. exact H. Qed.

(** What is silent but for warnings is handled by the rules of [wp]. *)
Lemma wpt_silent {A} (m : M A) (Q : list Event -> A -> World -> Prop) w :
  wp m warning_only (Q []) (E []) w -> wpt m Q E w.
Proof.
  intros [Ht Hv]. unfold wpt. rewrite (without_warnings_only _ Ht). exact Hv.
Qed.

End TraceRules.

Lemma wpt_bind {A B} (m : M A) (k : A -> M B)
    (Q : list Event -> B -> World -> Prop) (E : list Event -> World -> Prop)
    w :
  wpt m (fun t a w' =>
           wpt (k a) (fun t' b w'' => Q (t ++ t') b w'')
               (fun t' w'' => E (t ++ t') w'') w')
      E w ->
  wpt (m ≫= k) Q E w.
Proof.
  unfold wpt. rewrite run_bind.
  destruct (value (m w)) as [err|a]; cbn [value trace final].
  - intros H. exact H.
  - rewrite without_warnings_app. intros H. exact H.
Qed.

Lemma wpt_randn size (Q : list Event -> Tensor -> World -> Prop)
    (E : list Event -> World -> Prop) w :
  Q [EvRandn size] (MkTensor size (sample_normal (generator w) size).1)
    (set_generator (sample_normal (generator w) size).2 w) ->
  wpt (torch_randn size) Q E w.
Proof. intros H. exact H. Qed.

Lemma wpt_get {A} (k : World -> M A) (Q : list Event -> A -> World -> Prop)
    (E : list Event -> World -> Prop) w :
  wpt (k w) Q E w -> wpt (get_world ≫= k) Q E w.
Proof. intros H. apply wpt_bind. exact H. Qed.

(** Symbolic execution that keeps the trace. *)
Ltac wpt_rule :=
  lazymatch goal with
  | |- wpt (print _) _ _ _ => apply wpt_emit; [reflexivity|]
  | |- wpt (emit _) _ _ _ => apply wpt_emit; [reflexivity|]
  | |- wpt (torch_randn _) _ _ _ => apply wpt_randn
  | |- wpt (mret _) _ _ _ => apply wpt_ret
  | |- wpt (raise _) _ _ _ => apply wpt_raise
  | |- wpt (get_world ≫= _) _ _ _ => apply wpt_get
  | |- wpt (_ ≫= _) _ _ _ => apply wpt_bind
  | |- wpt (import_ _) _ _ _ => unfold import_
  | |- wpt imports _ _ _ => unfold imports
  | |- wpt install_filter _ _ _ => unfold install_filter
  | |- wpt load_model _ _ _ => unfold load_model
  | |- wpt (get_model _) _ _ _ => unfold get_model
  | |- wpt (wrap_model _) _ _ _ => unfold wrap_model
  | |- wpt (export_model _) _ _ _ => unfold export_model
  | |- wpt (torch_onnx_export _) _ _ _ => unfold torch_onnx_export
  | |- wpt report _ _ _ => unfold report
  | |- wpt script _ _ _ => unfold script
  | |- wpt _ _ _ _ => apply wpt_silent
  end.

Ltac trace_run side :=
  cbv beta;
  unfold set_filters, set_files, set_generator, set_heap;
  cbn [argv environ filters files generator heap app];
  lazymatch goal with
  | |- wpt _ _ _ _ => wpt_rule; trace_run side
  | |- wp _ _ _ _ _ => wp_rule; trace_run side
  | |- _ =>
      first [ solve [side]
            | lazymatch goal with
              | |- _ /\ _ => split; trace_run side
              | |- forall _, _ => intro; trace_run side
              end
            | idtac ]
  end.

Lemma script_visible (w : World) :
  wpt script
    (fun t _ w' =>
       exists real_model graph,
         t = whole_run (generator w) real_model (length graph) /\
         files w' = <[output_file := graph]> (files w) /\
         generator w' = (sample_normal (generator w) [1; 2; segment]).2)
    (fun t _ =>
       exists real_model size,
         t `prefix_of` whole_run (generator w) real_model size)
    w.
Proof.
  trace_run ltac:(idtac; lazymatch goal with
                  | |- True => exact I
                  | |- warning_only _ => exact I
                  | |- shown_ok warning_only _ => intros ? _; exact I
                  | |- exists _ _, _ `prefix_of` _ =>
                      eexists _, _; eexists; reflexivity
                  end).
  match goal with
  | H : <[_ := ?graph]> _ !! _ = Some _ |- _ =>
      cbn [ex_f export_call] in H; rewrite lookup_insert_eq in H;
      injection H as <-;
      match goal with
      | Hl : models _ !! 0%nat = Some ?l |- _ => exists l, graph
      end
  end.
  repeat split.
  Unshelve. all: exact 0%nat.
Qed.

Lemma trace_bind_return {A B} (m : M A) (k : A -> M B) w a :
  value (m w) = inr a ->
  trace ((m ≫= k) w) = trace (m w) ++ trace (k a (final (m w))).
Proof. intros H. rewrite run_bind, H. reflexivity. Qed.

(** A bind that returned went through both of its halves. *)
Lemma bind_returned {A B} (m : M A) (k : A -> M B) w b :
  value ((m ≫= k) w) = inr b ->
  exists a, value (m w) = inr a /\ value (k a (final (m w))) = inr b.
Proof.
  rewrite run_bind. destruct (value (m w)) as [err|a]; cbn [value].
  - discriminate.
  - intros H. exists a. split; [reflexivity | exact H].
Qed.

(** What a judgment says of a run that returned. *)
Lemma wpt_returned {A} (m : M A) Q E w a :
  wpt m Q E w -> value (m w) = inr a ->
  Q (without_warnings (trace (m w))) a (final (m w)).
Proof. unfold wpt. intros H Hv. rewrite Hv in H. exact H. Qed.

Lemma install_filter_silent (w : World) :
  without_warnings (trace (@install_filter Data Params Gen w)) = [].
Proof. reflexivity. Qed.

Ltac visible_side :=
  idtac;
  lazymatch goal with
  | |- True => exact I
  | |- warning_only _ => exact I
  | |- shown_ok warning_only _ => intros ? _; exact I
  end.

Lemma imports_visible (w : World) :
  wpt imports
    (fun t _ w' =>
       t = [EvImport "torch"; EvImport "demucs.pretrained";
            EvImport "warnings"] /\
       w' = w)
    (fun _ _ => True) w.
Proof.
  trace_run visible_side; try reflexivity.
  all: destruct w; reflexivity.
Qed.

Lemma load_model_visible (w : World) :
  wpt load_model
    (fun t _ w' =>
       t = [EvPrint (nl +:+ "Loading " +:+ name +:+ "..."); EvGetModel name]
       /\ generator w' = generator w /\ files w' = files w)
    (fun _ _ => True) w.
Proof.
  trace_run visible_side; try reflexivity.
Qed.

Lemma after_load_visible (real_model : loc) (w : World) :
  wpt (wrap_model real_model
       ≫= fun wrapped_model => export_model wrapped_model ≫= fun _ => report)
    (fun t _ w' =>
       exists graph,
         [EvImport "torch"; EvImport "demucs.pretrained";
          EvImport "warnings";
          EvPrint (nl +:+ "Loading " +:+ name +:+ "..."); EvGetModel name]
         ++ t
         = whole_run (generator w) real_model (length graph) /\
         files w' = <[output_file := graph]> (files w))
    (fun _ _ => True) w.
Proof.
  trace_run visible_side.
  match goal with
  | H : <[_ := ?graph]> _ !! _ = Some _ |- _ =>
      cbn [ex_f export_call] in H; rewrite lookup_insert_eq in H;
      injection H as <-; exists graph
  end.
  split; reflexivity.
Qed.

(** X1. A run that goes to the end has made, warnings aside, exactly the
    calls and console lines of [whole_run], in that order: one registry
    lookup, one draw, and one export call, whose module is the wrapper
    of the very reference that loading returned and whose input is the
    tensor drawn.  The size in the completion line is the size of the
    file that is then at the output path. *)
Theorem completed_run_trace (w : World) :
  value (script w) = inr tt ->
  exists real_model graph,
    value (load_model
             (final (@install_filter Data Params Gen (final (imports w)))))
      = inr real_model /\
    without_warnings (trace (script w))
      = whole_run (generator w) real_model (length graph) /\
    files (final (script w)) !! output_file = Some graph.
Proof.
  intros Hv. unfold script in Hv.
  destruct (bind_returned _ _ _ _ Hv) as ([] & Hi & Hv1).
  destruct (bind_returned _ _ _ _ Hv1) as ([] & Hf & Hv2).
  destruct (bind_returned _ _ _ _ Hv2) as (l & Hl & Hv3).
  destruct (wpt_returned _ _ _ _ _ (imports_visible w) Hi) as [Hta Hwa].
  destruct (wpt_returned _ _ _ _ _ (load_model_visible _) Hl)
    as (Htb & Hgb & Hfb).
  destruct (wpt_returned _ _ _ _ _ (after_load_visible l _) Hv3)
    as (graph & Htc & Hfc).
  exists l, graph. split; [exact Hl|]. split.
  - unfold script.
    rewrite (trace_bind_return _ _ _ _ Hi). cbv beta.
    rewrite (trace_bind_return _ _ _ _ Hf). cbv beta.
    rewrite (trace_bind_return _ _ _ _ Hl). cbv beta.
    rewrite !without_warnings_app, Hta, Htb.
    assert (generator
              (final (load_model
                 (final (@install_filter Data Params Gen
                           (final (imports w))))))
            = generator w) as Hg.
    { rewrite Hgb, Hwa. reflexivity. }
    rewrite Hg in Htc. rewrite <- Htc.
    match goal with
    | |- context [without_warnings (trace ((wrap_model l ≫= ?k) ?x))] =>
        generalize (without_warnings (trace ((wrap_model l ≫= k) x)))
    end.
    intros rest. rewrite install_filter_silent. reflexivity.
  - unfold script.
    rewrite (final_bind_return _ _ _ _ Hi).
    rewrite (final_bind_return _ _ _ _ Hf).
    rewrite (final_bind_return _ _ _ _ Hl).
    rewrite Hfc. apply lookup_insert_eq.
Qed.

(** X2. Whether or not it goes to the end, a run never leaves the order
    of the script: what it has called and printed, warnings aside, is an
    initial segment of [whole_run]; no step is skipped, repeated or
    reordered. *)
Theorem run_follows_script_order (w : World) :
  exists real_model size,
    without_warnings (trace (script w))
      `prefix_of` whole_run (generator w) real_model size.
Proof.
  pose proof (script_visible w) as H. unfold wpt in H.
  destruct (value (script w)) as [err|[]].
  - exact H.
  - destruct H as (l & graph & -> & _). exists l, (length graph).
    reflexivity.
Qed.

(* ===================================================================== *)
(** ** What the filter leaves alone *)
(* ===================================================================== *)




End Properties.

(* ===================================================================== *)
(** ** The theorems at work on the concrete environment *)
(* ===================================================================== *)

Lemma wrapper_is_pure_refactor_witness :
  value (forward (L := Toy.libraries true) (WaveformOnlyWrapper_init 0)
           (MkTensor [1; 2; 8] 3) (Toy.loaded 5))
  = inr (MkTensor [1; 6; 2; 8] 13).
Proof.
  rewrite (proj2 (wrapper_is_pure_refactor (L := Toy.libraries true)
                    (WaveformOnlyWrapper_init 0) (MkTensor [1; 2; 8] 3)
                    (Toy.loaded 5))
             (MkModule 7 CPU false)).
  - reflexivity.
  - reflexivity.
  - intros x. discriminate.
Defined.

Lemma export_call_declarations_witness :
  export_events (trace (script (L := Toy.libraries true) (Toy.boot 5)))
    = [Toy.the_call 5] /\
  Forall declares
    (export_events (trace (script (L := Toy.libraries true) (Toy.boot 5)))).
Proof.
  split.
  - vm_compute. reflexivity.
  - apply (export_call_declarations (L := Toy.libraries true) (Toy.boot 5)).
Defined.

Lemma loaded_model_ready_witness :
  value (load_model (L := Toy.libraries true) (Toy.boot 5)) = inr 0%nat /\
  exists ws sts st0,
    pretrained (Libraries := Toy.libraries true) "htdemucs_6s"
      = (ws, inr sts) /\
    sts !! 0%nat = Some st0 /\
    heap (final (load_model (L := Toy.libraries true) (Toy.boot 5))) !! 0%nat
      = Some (MkModule (params st0) CPU false).
Proof.
  split; [vm_compute; reflexivity|].
  apply (proj2 (loaded_model_ready (L := Toy.libraries true) (Toy.boot 5))).
  vm_compute. reflexivity.
Defined.


Lemma parameters_never_modified_witness :
  parameters (final (script (L := Toy.libraries true) (Toy.loaded 5))) 0%nat
    = Some 7 /\
  parameters
    (final (forward (L := Toy.libraries true) (WaveformOnlyWrapper_init 0)
              (MkTensor [1; 2; 8] 3) (Toy.loaded 5))) 0%nat
    = Some 7.
Proof.
  pose proof (parameters_never_modified (L := Toy.libraries true)
                (fun st wave => eq_refl) (fun st wave z => eq_refl)
                (Toy.loaded 5) 0%nat 7 eq_refl) as H.
  split.
  - apply H.
  - apply H.
Defined.

Lemma export_overwrites_fixed_path_witness :
  files (final (script (L := Toy.libraries true) (Toy.boot 5)))
    !! "htdemucs_6s_waveform.onnx" = Some [Byte.x08; Byte.x11] /\
  exists graph,
    serialised (L := Toy.libraries true) graph /\
    files (final (script (L := Toy.libraries true)
                    (final (script (L := Toy.libraries true) (Toy.boot 5)))))
      = <["htdemucs_6s_waveform.onnx" := graph]> (files (Toy.boot 5)).
Proof.
  split; [vm_compute; reflexivity|].
  apply (export_overwrites_fixed_path (L := Toy.libraries true) (Toy.boot 5)
           (final (script (L := Toy.libraries true) (Toy.boot 5)))).
  - vm_compute. reflexivity.
  - reflexivity.
  - vm_compute. reflexivity.
Defined.

Lemma configuration_is_fixed_witness :
  script (L := Toy.libraries true)
    (set_invocation ["export_htdemucs.py"; "--name"; "mdx"]
       {[ "MODEL" := "mdx" ]} (Toy.boot 5))
  = MkOutcome
      (trace (script (L := Toy.libraries true) (Toy.boot 5)))
      (set_invocation ["export_htdemucs.py"; "--name"; "mdx"]
         {[ "MODEL" := "mdx" ]}
         (final (script (L := Toy.libraries true) (Toy.boot 5))))
      (value (script (L := Toy.libraries true) (Toy.boot 5))).
Proof.
  apply (configuration_is_fixed (L := Toy.libraries true) (Toy.boot 5)).
Defined.

Lemma dummy_input_unseeded_witness :
  export_events (trace (script (L := Toy.libraries true) (Toy.boot 5)))
    !! 0%nat = Some (Toy.the_call 5) /\
  export_events (trace (script (L := Toy.libraries true) (Toy.boot 6)))
    !! 0%nat = Some (Toy.the_call 6) /\
  shape (ex_args (Toy.the_call 5)) = shape (ex_args (Toy.the_call 6)) /\
  ex_args (Toy.the_call 5) <> ex_args (Toy.the_call 6).
Proof.
  assert (H5 : export_events
                 (trace (script (L := Toy.libraries true) (Toy.boot 5)))
               !! 0%nat = Some (Toy.the_call 5))
    by (vm_compute; reflexivity).
  assert (H6 : export_events
                 (trace (script (L := Toy.libraries true) (Toy.boot 6)))
               !! 0%nat = Some (Toy.the_call 6))
    by (vm_compute; reflexivity).
  destruct (dummy_input_unseeded (L := Toy.libraries true)
              (Toy.boot 5) (Toy.boot 6) 0 0 _ _ H5 H6)
    as (S5 & S6 & _ & _ & Hne).
  split; [exact H5|]. split; [exact H6|]. split.
  - rewrite S5, S6. reflexivity.
  - apply Hne. vm_compute. discriminate.
Defined.

Lemma user_warnings_suppressed_witness :
  exists t,
    trace (script (L := Toy.libraries true) (Toy.boot 5))
      = trace (imports (L := Toy.libraries true) (Toy.boot 5)) ++ t /\
    Forall import_event
      (trace (imports (L := Toy.libraries true) (Toy.boot 5))) /\
    Forall quiet t.
Proof.
  apply (user_warnings_suppressed (L := Toy.libraries true) (Toy.boot 5)).
Defined.

Lemma run_follows_script_order_witness :
  value (script (L := Toy.libraries false) (Toy.boot 5))
    = inl (MkExn "ModelLoadingError" "htdemucs_6s") /\
  exists real_model size,
    without_warnings (trace (script (L := Toy.libraries false) (Toy.boot 5)))
      `prefix_of` whole_run (L := Toy.libraries false) 5 real_model size.
Proof.
  split; [vm_compute; reflexivity|].
  apply (run_follows_script_order (L := Toy.libraries false) (Toy.boot 5)).
Defined.


Lemma completed_run_trace_witness :
  without_warnings (trace (script (L := Toy.libraries true) (Toy.boot 5)))
    = whole_run (L := Toy.libraries true) 5 0%nat 2.
Proof.
  destruct (completed_run_trace (L := Toy.libraries true) (Toy.boot 5))
    as (l & graph & Hl & Ht & Hf); [vm_compute; reflexivity|].
  vm_compute in Hl. injection Hl as <-.
  vm_compute in Hf. injection Hf as <-.
  exact Ht.
Defined.

